(** * libdyson: capability discovery and dynamic device factory

    A shallow embedding of [libdyson/capability_discovery.py] and
    [libdyson/dynamic_device_factory.py].

    - Python [float] is IEEE 754 binary64 with round-to-nearest-even; it is
      modelled by Rocq's primitive floats, which are the same numbers with
      the same operations.  Decimal literals are rounded as Python rounds
      them.
    - Python [dict] payloads are [gmap string value], Python [set]s of
      capabilities are [gset DeviceCapability].
    - The detectors never raise on a dictionary input (they only test key
      membership and [is not None]), so the [try]/[except] around each
      detector in [discover_capabilities] has no reachable handler and the
      loop is modelled without it. *)

From Stdlib Require Import Floats Uint63 ZArith String List Bool.
From stdpp Require Import gmap strings list.

Set Warnings "-inexact-float,-register-all,-clear-no-such-hyp".
Local Open Scope string_scope.

(** ** Python values and floats *)

(** The JSON values found in a telemetry payload.  A status field is either
    a scalar or a two-element list [[previous, current]]. *)
Inductive value : Type :=
  | VNone
  | VStr (s : string)
  | VInt (n : Z)
  | VList (l : list value).

(** [v is not None] *)
Definition is_not_None (v : value) : bool :=
  match v with
  | VNone => false
  | _ => true
  end.

(** Python's [min(a, b)] on two floats: the first argument is kept unless
    the second is strictly smaller. *)
Definition py_min (a b : float) : float :=
  if PrimFloat.ltb b a then b else a.

(** [float(n)] for a small non-negative integer. *)
Definition float_of_nat (n : nat) : float :=
  PrimFloat.of_uint63 (Uint63.of_Z (Z.of_nat n)).

(** [any(...)] and [all(...)] over a generator of booleans. *)
Definition py_any {A} (f : A → bool) (l : list A) : bool := existsb f l.
Definition py_all {A} (f : A → bool) (l : list A) : bool := forallb f l.

(** ** class DeviceCapability(Enum) *)

Inductive DeviceCapability : Set :=
  | BASIC_FAN_CONTROL
  | BASIC_OSCILLATION
  | NIGHT_MODE
  | SLEEP_TIMER
  | ANGLE_OSCILLATION
  | FRONT_AIRFLOW
  | AUTO_MODE
  | FILTER_MONITORING
  | PM_SENSORS
  | VOC_SENSOR
  | NO2_SENSOR
  | CO2_SENSOR
  | HUMIDITY_SENSOR
  | TEMPERATURE_SENSOR
  | HUMIDIFICATION
  | WATER_HARDNESS
  | HEATING
  | TILT_CONTROL
  | CONTINUOUS_MONITORING.

#[global] Instance DeviceCapability_eq_dec : EqDecision DeviceCapability.
Proof. solve_decision. Defined.

Definition DeviceCapability_index (c : DeviceCapability) : nat :=
  match c with
  | BASIC_FAN_CONTROL => 0 | BASIC_OSCILLATION => 1 | NIGHT_MODE => 2
  | SLEEP_TIMER => 3 | ANGLE_OSCILLATION => 4 | FRONT_AIRFLOW => 5
  | AUTO_MODE => 6 | FILTER_MONITORING => 7 | PM_SENSORS => 8
  | VOC_SENSOR => 9 | NO2_SENSOR => 10 | CO2_SENSOR => 11
  | HUMIDITY_SENSOR => 12 | TEMPERATURE_SENSOR => 13 | HUMIDIFICATION => 14
  | WATER_HARDNESS => 15 | HEATING => 16 | TILT_CONTROL => 17
  | CONTINUOUS_MONITORING => 18
  end.

Definition DeviceCapability_of_index (n : nat) : DeviceCapability :=
  match n with
  | 0 => BASIC_FAN_CONTROL | 1 => BASIC_OSCILLATION | 2 => NIGHT_MODE
  | 3 => SLEEP_TIMER | 4 => ANGLE_OSCILLATION | 5 => FRONT_AIRFLOW
  | 6 => AUTO_MODE | 7 => FILTER_MONITORING | 8 => PM_SENSORS
  | 9 => VOC_SENSOR | 10 => NO2_SENSOR | 11 => CO2_SENSOR
  | 12 => HUMIDITY_SENSOR | 13 => TEMPERATURE_SENSOR | 14 => HUMIDIFICATION
  | 15 => WATER_HARDNESS | 16 => HEATING | 17 => TILT_CONTROL
  | _ => CONTINUOUS_MONITORING
  end.

#[global] Instance DeviceCapability_countable : Countable DeviceCapability.
Proof.
  refine (inj_countable' DeviceCapability_index DeviceCapability_of_index _).
  intros []; reflexivity.
Defined.

(** ** @dataclass DeviceCapabilities *)

Record DeviceCapabilities : Type := mkDeviceCapabilities {
  discovered_capabilities : gset DeviceCapability;
  status_fields : gset string;
  environmental_fields : gset string;
  device_type_hint : option string;
  confidence_score : float
}.

(** [capability in self.discovered_capabilities] *)
Definition has_capability (self : DeviceCapabilities) (capability : DeviceCapability) : bool :=
  bool_decide (capability ∈ discovered_capabilities self).

(** [bool(self.discovered_capabilities & set(capabilities))] *)
Definition has_any_capability (self : DeviceCapabilities) (capabilities : list DeviceCapability) : bool :=
  bool_decide (discovered_capabilities self ∩ list_to_set capabilities ≠ ∅).

(** [set(capabilities).issubset(self.discovered_capabilities)] *)
Definition has_all_capabilities (self : DeviceCapabilities) (capabilities : list DeviceCapability) : bool :=
  bool_decide (list_to_set capabilities ⊆ discovered_capabilities self).

(** ** class CapabilityDetector(ABC) and its six subclasses *)

(** The abstract interface; [detector_name] is [self.__class__.__name__]. *)
Record CapabilityDetector : Type := mkDetector {
  detector_name : string;
  detect : gmap string value → gmap string value → gset DeviceCapability;
  get_required_fields : gset string;
  get_confidence_score : gmap string value → gmap string value → float
}.

(** [_has_field]: the six detector classes each carry a textually identical
    copy, [field in data and data[field] is not None]. *)
Definition _has_field (data : gmap string value) (field : string) : bool :=
  match data !! field with
  | Some v => is_not_None v
  | None => false
  end.

(** [all(self._has_field(data, field) for field in fields)] *)
Definition _has_fields (data : gmap string value) (fields : list string) : bool :=
  py_all (_has_field data) fields.

(** [if cond: capabilities.add(c)] *)
Definition add_if (cond : bool) (c : DeviceCapability) (capabilities : gset DeviceCapability)
  : gset DeviceCapability :=
  if cond then capabilities ∪ {[ c ]} else capabilities.

(** [if cond: confidence += x] *)
Definition incr_if (cond : bool) (x : float) (confidence : float) : float :=
  if cond then PrimFloat.add confidence x else confidence.

Module BasicFanDetector.
Definition detect (status_data environmental_data : gmap string value) : gset DeviceCapability :=
  let capabilities : gset DeviceCapability := ∅ in
  let capabilities := add_if (_has_fields status_data ["fpwr"; "fnsp"]) BASIC_FAN_CONTROL capabilities in
  let capabilities := add_if (_has_field status_data "oson") BASIC_OSCILLATION capabilities in
  let capabilities := add_if (_has_fields status_data ["nmod"; "nmdv"]) NIGHT_MODE capabilities in
  let capabilities := add_if (_has_field status_data "sltm") SLEEP_TIMER capabilities in
  capabilities.

Definition get_required_fields : gset string :=
  {[ "fpwr"; "fnsp"; "oson"; "nmod"; "nmdv"; "sltm" ]}.

Definition get_confidence_score (status_data environmental_data : gmap string value) : float :=
  let basic_fields := ["fpwr"; "fnsp"] in
  let oscillation_field := "oson" in
  let confidence := 0.0%float in
  let confidence := incr_if (py_all (_has_field status_data) basic_fields) 0.8 confidence in
  let confidence := incr_if (_has_field status_data oscillation_field) 0.15 confidence in
  let confidence := incr_if (_has_field status_data "sltm") 0.05 confidence in
  py_min 1.0 confidence.

Definition self : CapabilityDetector :=
  mkDetector "BasicFanDetector" detect get_required_fields get_confidence_score.
End BasicFanDetector.

Module AdvancedOscillationDetector.
Definition detect (status_data environmental_data : gmap string value) : gset DeviceCapability :=
  let capabilities : gset DeviceCapability := ∅ in
  let capabilities := add_if (_has_fields status_data ["osal"; "osau"]) ANGLE_OSCILLATION capabilities in
  capabilities.

Definition get_required_fields : gset string := {[ "osal"; "osau"; "ancp" ]}.

Definition get_confidence_score (status_data environmental_data : gmap string value) : float :=
  let angle_fields := ["osal"; "osau"] in
  if _has_fields status_data angle_fields then 0.95%float
  else if py_any (_has_field status_data) angle_fields then 0.5%float
  else 0.0%float.

Definition self : CapabilityDetector :=
  mkDetector "AdvancedOscillationDetector" detect get_required_fields get_confidence_score.
End AdvancedOscillationDetector.

Module PurificationDetector.
Definition detect (status_data environmental_data : gmap string value) : gset DeviceCapability :=
  let capabilities : gset DeviceCapability := ∅ in
  let capabilities := add_if (_has_field status_data "auto") AUTO_MODE capabilities in
  let capabilities :=
    add_if (_has_field status_data "cflr" || _has_field status_data "hflr")
           FILTER_MONITORING capabilities in
  let pm_fields := ["p25r"; "p10r"; "pm25"; "pm10"] in
  let capabilities := add_if (py_any (_has_field environmental_data) pm_fields) PM_SENSORS capabilities in
  let capabilities := add_if (_has_field status_data "fdir") FRONT_AIRFLOW capabilities in
  capabilities.

Definition get_required_fields : gset string :=
  {[ "auto"; "cflr"; "hflr"; "fdir"; "p25r"; "p10r"; "pm25"; "pm10" ]}.

Definition get_confidence_score (status_data environmental_data : gmap string value) : float :=
  let confidence := 0.0%float in
  let confidence := incr_if (_has_field status_data "auto") 0.4 confidence in
  let confidence :=
    incr_if (_has_field status_data "cflr" || _has_field status_data "hflr") 0.4 confidence in
  let pm_fields := ["pm25"; "pm10"; "p25r"; "p10r"] in
  let confidence := incr_if (py_any (_has_field environmental_data) pm_fields) 0.3 confidence in
  let confidence := incr_if (_has_field status_data "fdir") 0.1 confidence in
  py_min 1.0 confidence.

Definition self : CapabilityDetector :=
  mkDetector "PurificationDetector" detect get_required_fields get_confidence_score.
End PurificationDetector.

Module AdvancedEnvironmentalDetector.
Definition detect (status_data environmental_data : gmap string value) : gset DeviceCapability :=
  let capabilities : gset DeviceCapability := ∅ in
  let capabilities := add_if (_has_field environmental_data "va10") VOC_SENSOR capabilities in
  let capabilities := add_if (_has_field environmental_data "noxl") NO2_SENSOR capabilities in
  let capabilities := add_if (_has_field environmental_data "co2r") CO2_SENSOR capabilities in
  let capabilities := add_if (_has_field environmental_data "hact") HUMIDITY_SENSOR capabilities in
  let capabilities := add_if (_has_field environmental_data "tact") TEMPERATURE_SENSOR capabilities in
  capabilities.

Definition get_required_fields : gset string :=
  {[ "va10"; "noxl"; "co2r"; "hact"; "tact" ]}.

Definition get_confidence_score (status_data environmental_data : gmap string value) : float :=
  let advanced_fields := ["va10"; "noxl"; "co2r"] in
  let detected_count := length (List.filter (_has_field environmental_data) advanced_fields) in
  PrimFloat.div (float_of_nat detected_count) (float_of_nat (length advanced_fields)).

Definition self : CapabilityDetector :=
  mkDetector "AdvancedEnvironmentalDetector" detect get_required_fields get_confidence_score.
End AdvancedEnvironmentalDetector.

Module HeatingDetector.
Definition detect (status_data environmental_data : gmap string value) : gset DeviceCapability :=
  let capabilities : gset DeviceCapability := ∅ in
  let capabilities := add_if (_has_field status_data "hmod") HEATING capabilities in
  capabilities.

Definition get_required_fields : gset string := {[ "hmod"; "hmax" ]}.

Definition get_confidence_score (status_data environmental_data : gmap string value) : float :=
  if _has_field status_data "hmod" then 1.0%float else 0.0%float.

Definition self : CapabilityDetector :=
  mkDetector "HeatingDetector" detect get_required_fields get_confidence_score.
End HeatingDetector.

Module HumidificationDetector.
Definition detect (status_data environmental_data : gmap string value) : gset DeviceCapability :=
  let capabilities : gset DeviceCapability := ∅ in
  let capabilities := add_if (_has_field status_data "hume") HUMIDIFICATION capabilities in
  let capabilities := add_if (_has_field status_data "wath") WATER_HARDNESS capabilities in
  capabilities.

Definition get_required_fields : gset string := {[ "hume"; "haut"; "humt"; "wath" ]}.

Definition get_confidence_score (status_data environmental_data : gmap string value) : float :=
  if _has_field status_data "hume" then 1.0%float else 0.0%float.

Definition self : CapabilityDetector :=
  mkDetector "HumidificationDetector" detect get_required_fields get_confidence_score.
End HumidificationDetector.

(** ** class DysonBasicFan: the field accessor of the device classes *)

Module DysonBasicFan.
(** [_get_field_value]: [state[field][1]] when the value is a list, the
    value itself otherwise; [KeyError], [TypeError] and [IndexError] give
    [None]. *)
Definition _get_field_value (state : gmap string value) (field : string) : value :=
  match state !! field with
  | None => VNone
  | Some (VList l) =>
      match l !! 1%nat with
      | Some current => current
      | None => VNone
      end
  | Some v => v
  end.
End DysonBasicFan.

(** ** class DeviceCapabilityDiscovery *)

(** One entry of [detector_results], a dict with the four keys
    ["detector"], ["capabilities"], ["confidence"] and ["is_relevant"]. *)
Record DetectorResult : Type := mkResult {
  r_detector : string;
  r_capabilities : gset DeviceCapability;
  r_confidence : float;
  r_is_relevant : bool
}.

Module DeviceCapabilityDiscovery.

(** [self.detectors], set once in [__init__]. *)
Definition detectors : list CapabilityDetector :=
  [ BasicFanDetector.self;
    AdvancedOscillationDetector.self;
    PurificationDetector.self;
    AdvancedEnvironmentalDetector.self;
    HeatingDetector.self;
    HumidificationDetector.self ].

Definition _suggest_device_type (capabilities : gset DeviceCapability) : string :=
  if bool_decide (capabilities ∩ {[ VOC_SENSOR; NO2_SENSOR; CO2_SENSOR ]} ≠ ∅) then
    if bool_decide (HEATING ∈ capabilities) then "AdvancedPurifierFanWithHeating"
    else if bool_decide (HUMIDIFICATION ∈ capabilities) then "AdvancedPurifierFanWithHumidification"
    else "AdvancedPurifierFan"
  else if bool_decide (HEATING ∈ capabilities) && bool_decide (AUTO_MODE ∈ capabilities) then
    "BasicPurifierFanWithHeating"
  else if bool_decide (HUMIDIFICATION ∈ capabilities) && bool_decide (AUTO_MODE ∈ capabilities) then
    "BasicPurifierFanWithHumidification"
  else if bool_decide (capabilities ∩ {[ AUTO_MODE; FILTER_MONITORING ]} ≠ ∅) then
    if bool_decide (ANGLE_OSCILLATION ∈ capabilities) then "BasicPurifierFanWithOscillation"
    else "BasicPurifierFan"
  else if bool_decide (ANGLE_OSCILLATION ∈ capabilities) then "AdvancedOscillationFan"
  else if bool_decide (BASIC_FAN_CONTROL ∈ capabilities) then "BasicFan"
  else "UnknownDevice".

Definition _calculate_coherence_bonus (capabilities : gset DeviceCapability) : float :=
  let bonus := 0.0%float in
  (* Pattern 1: complete basic fan setup *)
  let bonus :=
    incr_if (bool_decide ({[ BASIC_FAN_CONTROL; BASIC_OSCILLATION ]} ⊆ capabilities)) 0.1 bonus in
  (* Pattern 2: complete purification setup *)
  let bonus :=
    incr_if (bool_decide ({[ AUTO_MODE; FILTER_MONITORING; PM_SENSORS ]} ⊆ capabilities)) 0.15 bonus in
  (* Pattern 3: advanced environmental monitoring suite *)
  let advanced_sensors : gset DeviceCapability := {[ VOC_SENSOR; NO2_SENSOR; CO2_SENSOR ]} in
  let bonus := incr_if (bool_decide (2 ≤ size (advanced_sensors ∩ capabilities))%nat) 0.2 bonus in
  (* Pattern 4: specialized device combinations *)
  let bonus :=
    incr_if (bool_decide (HEATING ∈ capabilities) && bool_decide (AUTO_MODE ∈ capabilities)) 0.15 bonus in
  let bonus :=
    incr_if (bool_decide (HUMIDIFICATION ∈ capabilities) && bool_decide (HUMIDITY_SENSOR ∈ capabilities))
            0.15 bonus in
  (* Pattern 5: angle oscillation specificity *)
  let bonus :=
    if bool_decide (ANGLE_OSCILLATION ∈ capabilities) then
      incr_if (bool_decide (AUTO_MODE ∉ capabilities)) 0.2 bonus
    else bonus in
  (* Pattern 6: environmental sensor completeness *)
  let environmental_sensors : gset DeviceCapability := {[ HUMIDITY_SENSOR; TEMPERATURE_SENSOR ]} in
  let bonus := incr_if (bool_decide (environmental_sensors ⊆ capabilities)) 0.1 bonus in
  py_min 0.3 bonus.

(** The [if]/[elif] chain on [detector_name] inside the weighting loop. *)
Definition assign_weight (detector_name : string) (capabilities_found : nat) : float :=
  if String.eqb detector_name "BasicFanDetector" then
    if (0 <? capabilities_found)%nat then 3.0%float else 1.0%float
  else if String.eqb detector_name "AdvancedOscillationDetector" then
    if (0 <? capabilities_found)%nat then 2.5%float else 0.5%float
  else if String.eqb detector_name "PurificationDetector" then
    if (0 <? capabilities_found)%nat then 3.0%float else 1.0%float
  else if String.eqb detector_name "AdvancedEnvironmentalDetector" then
    if (0 <? capabilities_found)%nat then 2.5%float else 0.5%float
  else if existsb (String.eqb detector_name) ["HeatingDetector"; "HumidificationDetector"] then
    if (0 <? capabilities_found)%nat then 2.0%float else 0.5%float
  else 1.0%float.

(** One iteration of [for result in relevant_results], on the pair
    [(total_weighted_confidence, total_weight)]. *)
Definition weigh (acc : float * float) (result : DetectorResult) : float * float :=
  let '(total_weighted_confidence, total_weight) := acc in
  let detector_name := r_detector result in
  let confidence := r_confidence result in
  let capabilities_found := size (r_capabilities result) in
  let weight := assign_weight detector_name capabilities_found in
  let weighted_confidence := PrimFloat.mul confidence weight in
  (PrimFloat.add total_weighted_confidence weighted_confidence,
   PrimFloat.add total_weight weight).

Definition _calculate_intelligent_confidence
    (detector_results : list DetectorResult) (all_capabilities : gset DeviceCapability) : float :=
  match detector_results with
  | [] => 0.0%float
  | _ =>
    let relevant_results := List.filter r_is_relevant detector_results in
    match relevant_results with
    | [] => 0.0%float
    | _ =>
      let '(total_weighted_confidence, total_weight) :=
        fold_left weigh relevant_results (0.0%float, 0.0%float) in
      let base_confidence :=
        if PrimFloat.ltb 0.0 total_weight
        then PrimFloat.div total_weighted_confidence total_weight
        else 0.0%float in
      let coherence_bonus := _calculate_coherence_bonus all_capabilities in
      let final_confidence := py_min 1.0 (PrimFloat.add base_confidence coherence_bonus) in
      final_confidence
    end
  end.

(** The body of [for detector in self.detectors], on the pair
    [(all_capabilities, detector_results)]. *)
Definition run_detector (status_data environmental_data : gmap string value)
    (acc : gset DeviceCapability * list DetectorResult) (detector : CapabilityDetector)
  : gset DeviceCapability * list DetectorResult :=
  let '(all_capabilities, detector_results) := acc in
  let capabilities := detect detector status_data environmental_data in
  let confidence := get_confidence_score detector status_data environmental_data in
  let result :=
    mkResult (detector_name detector) capabilities confidence
             ((0 <? size capabilities)%nat || PrimFloat.ltb 0.0 confidence) in
  (all_capabilities ∪ capabilities, (detector_results ++ [result])%list).

Definition discover_capabilities (status_data environmental_data : gmap string value)
  : DeviceCapabilities :=
  let status_fields : gset string := dom status_data in
  let environmental_fields : gset string := dom environmental_data in
  let '(all_capabilities, detector_results) :=
    fold_left (run_detector status_data environmental_data) detectors (∅, []) in
  let overall_confidence := _calculate_intelligent_confidence detector_results all_capabilities in
  let device_type_hint := _suggest_device_type all_capabilities in
  mkDeviceCapabilities all_capabilities status_fields environmental_fields
                       (Some device_type_hint) overall_confidence.

End DeviceCapabilityDiscovery.

(** ** class DynamicDeviceFactory *)

(** The six device-control classes the factory instantiates. *)
Inductive DeviceClass : Set :=
  | DysonAdvancedOscillationFan
  | DysonAdvancedPurifierFan
  | DysonBasicFan
  | DysonBasicPurifierFanWithOscillation
  | DysonBasicPurifierFanWithHeating
  | DysonBasicPurifierFanWithHumidification.

(** A constructed device: its class, the three constructor arguments, and
    the [_discovered_capabilities] attribute the factory may attach. *)
Record DysonDevice : Type := mkDevice {
  device_class : DeviceClass;
  _serial : string;
  _credential : string;
  _device_type : string;
  _discovered_capabilities : option DeviceCapabilities
}.

(** [device_instance._discovered_capabilities = capabilities] *)
Definition set_discovered_capabilities (d : DysonDevice) (capabilities : DeviceCapabilities)
  : DysonDevice :=
  mkDevice (device_class d) (_serial d) (_credential d) (_device_type d) (Some capabilities).

(** [Cls(serial, credential, device_type)] *)
Definition new (cls : DeviceClass) (serial credential device_type : string) : DysonDevice :=
  mkDevice cls serial credential device_type None.

(** Truthiness of an [Optional[Dict]]: [None] and [{}] are falsy. *)
Definition truthy (data : option (gmap string value)) : bool :=
  match data with
  | None => false
  | Some d => bool_decide (d ≠ ∅)
  end.

(** [data or {}] *)
Definition or_empty (data : option (gmap string value)) : gmap string value :=
  match data with
  | None => ∅
  | Some d => if bool_decide (d ≠ ∅) then d else ∅
  end.

Module DynamicDeviceFactory.

Definition _create_device_from_capabilities
    (serial credential device_type : string) (capabilities : DeviceCapabilities)
  : option DysonDevice :=
  if has_any_capability capabilities [VOC_SENSOR; NO2_SENSOR; CO2_SENSOR] then
    Some (new DysonAdvancedPurifierFan serial credential device_type)
  else if has_capability capabilities AUTO_MODE
          && has_capability capabilities FILTER_MONITORING
          && has_capability capabilities HEATING then
    Some (new DysonBasicPurifierFanWithHeating serial credential device_type)
  else if has_capability capabilities AUTO_MODE
          && has_capability capabilities FILTER_MONITORING
          && has_capability capabilities HUMIDIFICATION then
    Some (new DysonBasicPurifierFanWithHumidification serial credential device_type)
  else if has_capability capabilities AUTO_MODE
          && has_capability capabilities FILTER_MONITORING then
    Some (new DysonBasicPurifierFanWithOscillation serial credential device_type)
  else if has_capability capabilities ANGLE_OSCILLATION
          && negb (has_capability capabilities AUTO_MODE) then
    Some (new DysonAdvancedOscillationFan serial credential device_type)
  else if has_capability capabilities BASIC_FAN_CONTROL then
    Some (new DysonBasicFan serial credential device_type)
  else None.

Definition _fallback_to_static_mapping (serial credential device_type : string)
  : option DysonDevice :=
  if String.prefix "739" device_type then
    Some (new DysonAdvancedOscillationFan serial credential device_type)
  else if String.prefix "438" device_type then
    Some (new DysonBasicPurifierFanWithOscillation serial credential device_type)
  else if String.prefix "527" device_type then
    Some (new DysonBasicPurifierFanWithHeating serial credential device_type)
  else if String.prefix "358" device_type then
    Some (new DysonBasicPurifierFanWithHumidification serial credential device_type)
  else if String.prefix "664" device_type then
    Some (new DysonAdvancedPurifierFan serial credential device_type)
  else None.

Definition create_device_from_capabilities
    (serial credential device_type : string)
    (status_data environmental_data : option (gmap string value))
  : option DysonDevice :=
  if negb (truthy status_data) && negb (truthy environmental_data) then
    _fallback_to_static_mapping serial credential device_type
  else
    let capabilities :=
      DeviceCapabilityDiscovery.discover_capabilities
        (or_empty status_data) (or_empty environmental_data) in
    let device_instance :=
      _create_device_from_capabilities serial credential device_type capabilities in
    match device_instance with
    | Some d => Some (set_discovered_capabilities d capabilities)
    | None => _fallback_to_static_mapping serial credential device_type
    end.

End DynamicDeviceFactory.

(** * The specification's rule lists *)

(** These definitions follow the wording of the specification (sections 4.2
    to 4.5); the theorems below compare them with the code above. *)
Module Spec.

(** "evaluated in this exact priority order (first match wins)" *)
Definition first_match {A B : Type} (rules : list ((A → bool) * B)) (x : A) : option B :=
  snd <$> List.find (λ rule, fst rule x) rules.

Definition present (t : DeviceCapability) (tags : gset DeviceCapability) : bool :=
  bool_decide (t ∈ tags).

Definition any_advanced_sensor (tags : gset DeviceCapability) : bool :=
  present VOC_SENSOR tags || present NO2_SENSOR tags || present CO2_SENSOR tags.

(** Section 4.4, rules 1 to 6; rule 7 is the absence of a match. *)
Definition select_rules : list ((gset DeviceCapability → bool) * DeviceClass) :=
  [ (any_advanced_sensor, DysonAdvancedPurifierFan);
    (λ tags, present AUTO_MODE tags && present FILTER_MONITORING tags && present HEATING tags,
     DysonBasicPurifierFanWithHeating);
    (λ tags, present AUTO_MODE tags && present FILTER_MONITORING tags && present HUMIDIFICATION tags,
     DysonBasicPurifierFanWithHumidification);
    (λ tags, present AUTO_MODE tags && present FILTER_MONITORING tags,
     DysonBasicPurifierFanWithOscillation);
    (λ tags, present ANGLE_OSCILLATION tags && negb (present AUTO_MODE tags),
     DysonAdvancedOscillationFan);
    (λ tags, present BASIC_FAN_CONTROL tags, DysonBasicFan) ].

Definition select (tags : gset DeviceCapability) : option DeviceClass :=
  first_match select_rules tags.

(** Section 4.3, rules 1 to 6; rule 7 is the default.  Rules 1 and 4 pick
    their label by a second test. *)
Definition hint_rules : list ((gset DeviceCapability → bool) * (gset DeviceCapability → string)) :=
  [ (any_advanced_sensor,
     λ tags, if present HEATING tags then "AdvancedPurifierFanWithHeating"
             else if present HUMIDIFICATION tags then "AdvancedPurifierFanWithHumidification"
             else "AdvancedPurifierFan");
    (λ tags, present HEATING tags && present AUTO_MODE tags,
     λ _, "BasicPurifierFanWithHeating");
    (λ tags, present HUMIDIFICATION tags && present AUTO_MODE tags,
     λ _, "BasicPurifierFanWithHumidification");
    (λ tags, present AUTO_MODE tags || present FILTER_MONITORING tags,
     λ tags, if present ANGLE_OSCILLATION tags then "BasicPurifierFanWithOscillation"
             else "BasicPurifierFan");
    (λ tags, present ANGLE_OSCILLATION tags, λ _, "AdvancedOscillationFan");
    (λ tags, present BASIC_FAN_CONTROL tags, λ _, "BasicFan") ].

Definition hint (tags : gset DeviceCapability) : string :=
  match first_match hint_rules tags with
  | Some label => label tags
  | None => "UnknownDevice"
  end.

(** Section 4.5: the fixed prefix table, matched by literal prefix. *)
Definition static_table : list (string * DeviceClass) :=
  [ ("739", DysonAdvancedOscillationFan);
    ("438", DysonBasicPurifierFanWithOscillation);
    ("527", DysonBasicPurifierFanWithHeating);
    ("358", DysonBasicPurifierFanWithHumidification);
    ("664", DysonAdvancedPurifierFan) ].

Definition static_fallback (device_type : string) : option DeviceClass :=
  snd <$> List.find (λ entry, String.prefix (fst entry) device_type) static_table.

(** Section 3: "a value that is either a scalar or a two-element ordered
    pair [previous, current]; only the current element is semantically
    relevant". *)
Definition resolved (v : value) : value :=
  match v with
  | VList [previous; current] => current
  | _ => v
  end.

(** Section 3: "A field is present iff the key exists and its resolved
    value is not null/absent." *)
Definition field_present (data : gmap string value) (field : string) : bool :=
  match data !! field with
  | Some v => is_not_None (resolved v)
  | None => false
  end.

(** Section 4.2: what one detector reports. *)
Record detection : Type := mkDetection {
  d_detector : string;
  d_tags : gset DeviceCapability;
  d_confidence : float
}.

(** Step 1: every registered detector is run, in the fixed order. *)
Definition detections (status environmental : gmap string value) : list detection :=
  map (λ d, mkDetection (detector_name d) (detect d status environmental)
                        (get_confidence_score d status environmental))
      DeviceCapabilityDiscovery.detectors.

(** "whether it found at least one tag" *)
Definition productive (d : detection) : bool := (0 <? size (d_tags d))%nat.

(** Step 2: "is_relevant := (detected tag count > 0) or (confidence > 0)" *)
Definition relevant (d : detection) : bool :=
  productive d || PrimFloat.ltb 0.0 (d_confidence d).

(** The per-detector weight table: weight when productive, weight when not. *)
Definition weight_table : list (string * (float * float)) :=
  [ ("BasicFanDetector", (3.0, 1.0));
    ("AdvancedOscillationDetector", (2.5, 0.5));
    ("PurificationDetector", (3.0, 1.0));
    ("AdvancedEnvironmentalDetector", (2.5, 0.5));
    ("HeatingDetector", (2.0, 0.5));
    ("HumidificationDetector", (2.0, 0.5)) ]%float.

(** "any other detector defaults to 1.0/1.0" *)
Definition weight (d : detection) : float :=
  let row :=
    match List.find (λ row, String.eqb (d_detector d) (fst row)) weight_table with
    | Some row => snd row
    | None => (1.0, 1.0)%float
    end in
  if productive d then fst row else snd row.

(** A sum of floats, taken from 0.0 in list order. *)
Definition sum (xs : list float) : float := fold_left PrimFloat.add xs 0.0%float.

(** Step 4: "base = sum(confidence * weight) / sum(weight)" over the
    relevant detectors; over no detector at all the mean is 0.0 (step 8). *)
Definition weighted_mean (ds : list detection) : float :=
  match ds with
  | [] => 0.0%float
  | _ => PrimFloat.div (sum (map (λ d, PrimFloat.mul (d_confidence d) (weight d)) ds))
                       (sum (map weight ds))
  end.

(** Step 5: the seven coherence rules, each a condition on the discovered
    tags and the amount it adds. *)
Definition coherence_rules (has : DeviceCapability → bool) : list (bool * float) :=
  [ (has BASIC_FAN_CONTROL && has BASIC_OSCILLATION, 0.10);
    (has AUTO_MODE && has FILTER_MONITORING && has PM_SENSORS, 0.15);
    ((2 <=? Nat.b2n (has VOC_SENSOR) + Nat.b2n (has NO2_SENSOR) + Nat.b2n (has CO2_SENSOR))%nat,
     0.20);
    (has HEATING && has AUTO_MODE, 0.15);
    (has HUMIDIFICATION && has HUMIDITY_SENSOR, 0.15);
    (has ANGLE_OSCILLATION && negb (has AUTO_MODE), 0.20);
    (has HUMIDITY_SENSOR && has TEMPERATURE_SENSOR, 0.10) ]%float.

(** "each rule additive, overall bonus capped at 0.30" *)
Definition bonus_of (has : DeviceCapability → bool) : float :=
  let total := sum (map snd (List.filter fst (coherence_rules has))) in
  if PrimFloat.ltb 0.30 total then 0.30%float else total.

Definition coherence_bonus (tags : gset DeviceCapability) : float :=
  bonus_of (λ t, present t tags).

(** Step 6: "confidence_score = min(1.0, base + bonus)" *)
Definition aggregate_confidence (ds : list detection) (tags : gset DeviceCapability) : float :=
  py_min 1.0 (PrimFloat.add (weighted_mean (List.filter relevant ds)) (coherence_bonus tags)).

(** Section 4.1, column "Tags emitted (condition)": the fields whose presence
    makes a tag detected; status fields are looked up in the status map, the
    PM and sensor fields in the environmental map. *)
Definition tag_condition (status environmental : gmap string value) (t : DeviceCapability) : bool :=
  match t with
  | BASIC_FAN_CONTROL => forallb (_has_field status) ["fpwr"; "fnsp"]
  | BASIC_OSCILLATION => _has_field status "oson"
  | NIGHT_MODE => forallb (_has_field status) ["nmod"; "nmdv"]
  | SLEEP_TIMER => _has_field status "sltm"
  | ANGLE_OSCILLATION => forallb (_has_field status) ["osal"; "osau"]
  | AUTO_MODE => _has_field status "auto"
  | FILTER_MONITORING => _has_field status "cflr" || _has_field status "hflr"
  | PM_SENSORS => existsb (_has_field environmental) ["p25r"; "p10r"; "pm25"; "pm10"]
  | FRONT_AIRFLOW => _has_field status "fdir"
  | VOC_SENSOR => _has_field environmental "va10"
  | NO2_SENSOR => _has_field environmental "noxl"
  | CO2_SENSOR => _has_field environmental "co2r"
  | HUMIDITY_SENSOR => _has_field environmental "hact"
  | TEMPERATURE_SENSOR => _has_field environmental "tact"
  | HEATING => _has_field status "hmod"
  | HUMIDIFICATION => _has_field status "hume"
  | WATER_HARDNESS => _has_field status "wath"
  | TILT_CONTROL => false
  | CONTINUOUS_MONITORING => false
  end.

End Spec.

(** * Proof support *)

Import DeviceCapabilityDiscovery.

(** Quantification over a boolean, as a boolean. *)
Definition all_bool (f : bool → bool) : bool := f true && f false.

(** The entry of [detector_results] that one detector produces. *)
Definition result_of (status_data environmental_data : gmap string value)
    (detector : CapabilityDetector) : DetectorResult :=
  let capabilities := detect detector status_data environmental_data in
  let confidence := get_confidence_score detector status_data environmental_data in
  mkResult (detector_name detector) capabilities confidence
           ((0 <? size capabilities)%nat || PrimFloat.ltb 0.0 confidence).

(** The union of the detectors' capability sets. *)
Definition all_detected (status_data environmental_data : gmap string value)
    (detectors : list CapabilityDetector) (start : gset DeviceCapability)
  : gset DeviceCapability :=
  fold_left (λ caps detector, caps ∪ detect detector status_data environmental_data)
            detectors start.

(** The code's bonus, on the membership test alone. *)
Definition bonus_by (has : DeviceCapability → bool) : float :=
  let bonus := 0.0%float in
  let bonus := incr_if (has BASIC_FAN_CONTROL && has BASIC_OSCILLATION) 0.1 bonus in
  let bonus := incr_if (has AUTO_MODE && has FILTER_MONITORING && has PM_SENSORS) 0.15 bonus in
  let bonus := incr_if (2 <=? Nat.b2n (has VOC_SENSOR) + Nat.b2n (has NO2_SENSOR) + Nat.b2n (has CO2_SENSOR))%nat 0.2 bonus in
  let bonus := incr_if (has HEATING && has AUTO_MODE) 0.15 bonus in
  let bonus := incr_if (has HUMIDIFICATION && has HUMIDITY_SENSOR) 0.15 bonus in
  let bonus := if has ANGLE_OSCILLATION then incr_if (negb (has AUTO_MODE)) 0.2 bonus else bonus in
  let bonus := incr_if (has HUMIDITY_SENSOR && has TEMPERATURE_SENSOR) 0.1 bonus in
  py_min 0.3 bonus.

(** A detection, as the entry of [detector_results] the loop appends. *)
Definition as_result (d : Spec.detection) : DetectorResult :=
  mkResult (Spec.d_detector d) (Spec.d_tags d) (Spec.d_confidence d) (Spec.relevant d).

(** Every field name some detector declares in [get_required_fields]. *)
Definition recognized_fields : gset string :=
  ⋃ (get_required_fields <$> detectors).

(** Membership in the closed unit interval, on floats. *)
Definition in_unit_interval (x : float) : bool :=
  PrimFloat.leb 0.0 x && PrimFloat.leb x 1.0.

(** * Theorems *)

Section set_tests.
Context (X : gset DeviceCapability).

Lemma meets_3 (a b c : DeviceCapability) :
  bool_decide (X ∩ {[ a; b; c ]} ≠ ∅)
  = bool_decide (a ∈ X) || bool_decide (b ∈ X) || bool_decide (c ∈ X).
Proof.
  repeat case_bool_decide; simpl; try reflexivity; exfalso; set_solver.
Qed.

Lemma meets_2 (a b : DeviceCapability) :
  bool_decide (X ∩ {[ a; b ]} ≠ ∅) = bool_decide (a ∈ X) || bool_decide (b ∈ X).
Proof.
  repeat case_bool_decide; simpl; try reflexivity; exfalso; set_solver.
Qed.

Lemma contains_2 (a b : DeviceCapability) :
  bool_decide ({[ a; b ]} ⊆ X) = bool_decide (a ∈ X) && bool_decide (b ∈ X).
Proof.
  repeat case_bool_decide; simpl; try reflexivity; exfalso; set_solver.
Qed.

Lemma contains_3 (a b c : DeviceCapability) :
  bool_decide ({[ a; b; c ]} ⊆ X)
  = bool_decide (a ∈ X) && bool_decide (b ∈ X) && bool_decide (c ∈ X).
Proof.
  repeat case_bool_decide; simpl; try reflexivity; exfalso; set_solver.
Qed.
End set_tests.

Lemma has_any_capability_3 (dc : DeviceCapabilities) (a b c : DeviceCapability) :
  has_any_capability dc [a; b; c]
  = has_capability dc a || has_capability dc b || has_capability dc c.
Proof.
  unfold has_any_capability, has_capability. simpl.
  rewrite <- meets_3. apply bool_decide_ext.
  rewrite (right_id_L ∅ (∪)). rewrite (assoc_L (∪)). reflexivity.
Qed.

Lemma create_device_is_select
    (serial credential device_type : string) (dc : DeviceCapabilities) :
  DynamicDeviceFactory._create_device_from_capabilities serial credential device_type dc
  = (λ cls, new cls serial credential device_type) <$> Spec.select (discovered_capabilities dc).
Proof.
  unfold DynamicDeviceFactory._create_device_from_capabilities.
  rewrite has_any_capability_3.
  unfold Spec.select, Spec.first_match, Spec.select_rules, Spec.any_advanced_sensor,
    Spec.present, has_capability.
  cbn [List.find fst snd].
  repeat (case_bool_decide; cbn [andb orb negb fmap option_fmap option_map List.find fst snd];
          try reflexivity).
Qed.

Lemma suggest_device_type_is_hint (capabilities : gset DeviceCapability) :
  DeviceCapabilityDiscovery._suggest_device_type capabilities = Spec.hint capabilities.
Proof.
  unfold DeviceCapabilityDiscovery._suggest_device_type.
  rewrite meets_3, meets_2.
  unfold Spec.hint, Spec.first_match, Spec.hint_rules, Spec.any_advanced_sensor, Spec.present.
  cbn [List.find fst snd].
  repeat (case_bool_decide; cbn [andb orb negb fmap option_fmap option_map List.find fst snd];
          try reflexivity).
Qed.

(** C1: for every capability set, the class instantiated by
    [_create_device_from_capabilities] is the one chosen by the
    specification's ordered rule list of section 4.4 (first match wins), and
    no device is returned exactly when no rule matches. *)
Theorem C1_factory_selection_priority
    (serial credential device_type : string) (dc : DeviceCapabilities) :
  DynamicDeviceFactory._create_device_from_capabilities serial credential device_type dc
  = (λ cls, new cls serial credential device_type) <$> Spec.select (discovered_capabilities dc).
Proof. apply create_device_is_select. Qed.

Lemma discover_capabilities_hint (status_data environmental_data : gmap string value) :
  let dc := DeviceCapabilityDiscovery.discover_capabilities status_data environmental_data in
  device_type_hint dc
  = Some (DeviceCapabilityDiscovery._suggest_device_type (discovered_capabilities dc)).
Proof.
  unfold DeviceCapabilityDiscovery.discover_capabilities.
  destruct (fold_left _ _ _) as [all_capabilities detector_results].
  reflexivity.
Qed.

(** C2: the hint computed by [_suggest_device_type] is the label chosen by
    the specification's ordered rule list of section 4.3 (first match wins,
    "UnknownDevice" when no rule matches), and the hint stored by
    [discover_capabilities] is that function applied to the discovered
    capability set alone. *)
Theorem C2_device_type_hint_priority :
  (∀ capabilities : gset DeviceCapability,
     DeviceCapabilityDiscovery._suggest_device_type capabilities = Spec.hint capabilities)
  ∧ (∀ status_data environmental_data : gmap string value,
       let dc := DeviceCapabilityDiscovery.discover_capabilities status_data environmental_data in
       device_type_hint dc = Some (Spec.hint (discovered_capabilities dc))).
Proof.
  split; [exact suggest_device_type_is_hint|].
  intros status_data environmental_data dc.
  rewrite <- suggest_device_type_is_hint. apply discover_capabilities_hint.
Qed.

(** C9: the hint classifier and the factory selection disagree on the
    capability set {ANGLE_OSCILLATION, FILTER_MONITORING}, which has no
    AUTO_MODE and is what discovery reports for a status map holding
    [osal], [osau] and [cflr]: the hint is "BasicPurifierFanWithOscillation"
    while the factory instantiates DysonAdvancedOscillationFan. *)
Theorem C9_hint_and_factory_diverge :
  let status_data : gmap string value :=
    {[ "osal" := VStr "0005"; "osau" := VStr "0355"; "cflr" := VStr "0050" ]} in
  let dc := DeviceCapabilityDiscovery.discover_capabilities status_data ∅ in
  discovered_capabilities dc = {[ ANGLE_OSCILLATION; FILTER_MONITORING ]}
  ∧ (AUTO_MODE ∉ discovered_capabilities dc)
  ∧ DeviceCapabilityDiscovery._suggest_device_type (discovered_capabilities dc)
    = "BasicPurifierFanWithOscillation"
  ∧ device_type_hint dc = Some "BasicPurifierFanWithOscillation"
  ∧ Spec.select (discovered_capabilities dc) = Some DysonAdvancedOscillationFan
  ∧ (∀ serial credential device_type : string,
        DynamicDeviceFactory._create_device_from_capabilities serial credential device_type dc
        = Some (new DysonAdvancedOscillationFan serial credential device_type)).
Proof.
  intros status_data dc.
  assert (Hcaps : discovered_capabilities dc = {[ ANGLE_OSCILLATION; FILTER_MONITORING ]})
    by (vm_compute; reflexivity).
  assert (Hsel : Spec.select (discovered_capabilities dc) = Some DysonAdvancedOscillationFan)
    by (vm_compute; reflexivity).
  split; [exact Hcaps|].
  split; [rewrite Hcaps; set_solver|].
  split; [vm_compute; reflexivity|].
  split; [vm_compute; reflexivity|].
  split; [exact Hsel|].
  intros serial credential device_type.
  rewrite create_device_is_select, Hsel. reflexivity.
Qed.

(** C10: a status map holding only a non-null [hume], with an empty
    environmental map, yields a confidence score of exactly 1.0 (the
    humidification detector alone is relevant, with confidence 1.0 and
    weight 2.0, and no coherence rule applies), the hint "UnknownDevice",
    and no match in the factory's selection. *)
Theorem C10_full_confidence_unknown_device :
  let status_data : gmap string value := {[ "hume" := VStr "HUMD" ]} in
  let dc := DeviceCapabilityDiscovery.discover_capabilities status_data ∅ in
  HumidificationDetector.get_confidence_score status_data ∅ = 1.0%float
  ∧ List.filter r_is_relevant
      (snd (fold_left (DeviceCapabilityDiscovery.run_detector status_data ∅)
                      DeviceCapabilityDiscovery.detectors (∅, [])))
    = [ mkResult "HumidificationDetector" {[ HUMIDIFICATION ]} 1.0%float true ]
  ∧ DeviceCapabilityDiscovery.assign_weight "HumidificationDetector" 1 = 2.0%float
  ∧ DeviceCapabilityDiscovery._calculate_coherence_bonus (discovered_capabilities dc) = 0.0%float
  ∧ confidence_score dc = 1.0%float
  ∧ device_type_hint dc = Some "UnknownDevice"
  ∧ (∀ serial credential device_type : string,
        DynamicDeviceFactory._create_device_from_capabilities serial credential device_type dc
        = None).
Proof.
  intros status_data dc.
  split; [vm_compute; reflexivity|].
  split; [vm_compute; reflexivity|].
  split; [vm_compute; reflexivity|].
  split; [vm_compute; reflexivity|].
  split; [vm_compute; reflexivity|].
  split; [vm_compute; reflexivity|].
  intros serial credential device_type.
  rewrite create_device_is_select.
  replace (Spec.select (discovered_capabilities dc)) with (@None DeviceClass)
    by (vm_compute; reflexivity).
  reflexivity.
Qed.

(** C7: when both payloads are absent or empty, the factory returns what
    the static prefix table of section 4.5 gives for the device-type string
    (a fresh device of the table's class, with no discovery result
    attached), and the result is [None], not an error, exactly when the
    string starts with none of the five prefixes. *)
Theorem C7_no_telemetry_static_fallback
    (serial credential device_type : string)
    (status_data environmental_data : option (gmap string value)) :
  (status_data = None ∨ status_data = Some ∅) →
  (environmental_data = None ∨ environmental_data = Some ∅) →
  let result :=
    DynamicDeviceFactory.create_device_from_capabilities
      serial credential device_type status_data environmental_data in
  result = DynamicDeviceFactory._fallback_to_static_mapping serial credential device_type
  ∧ result = (λ cls, new cls serial credential device_type) <$> Spec.static_fallback device_type
  ∧ (result = None
     ↔ Forall (λ p, String.prefix p device_type = false) ["739"; "438"; "527"; "358"; "664"]).
Proof.
  intros Hs He result.
  assert (Hskip : result
                  = DynamicDeviceFactory._fallback_to_static_mapping serial credential device_type).
  { subst result. unfold DynamicDeviceFactory.create_device_from_capabilities.
    destruct Hs as [-> | ->], He as [-> | ->]; reflexivity. }
  split; [exact Hskip|].
  rewrite Hskip. clear.
  unfold DynamicDeviceFactory._fallback_to_static_mapping, Spec.static_fallback, Spec.static_table.
  cbn [List.find fst snd].
  rewrite !Forall_cons, Forall_nil.
  destruct (String.prefix "739" device_type); [split; [reflexivity | split; [discriminate | intros [? _]; discriminate]]|].
  destruct (String.prefix "438" device_type); [split; [reflexivity | split; [discriminate | intros (_ & ? & _); discriminate]]|].
  destruct (String.prefix "527" device_type); [split; [reflexivity | split; [discriminate | intros (_ & _ & ? & _); discriminate]]|].
  destruct (String.prefix "358" device_type); [split; [reflexivity | split; [discriminate | intros (_ & _ & _ & ? & _); discriminate]]|].
  destruct (String.prefix "664" device_type); [split; [reflexivity | split; [discriminate | intros (_ & _ & _ & _ & ? & _); discriminate]]|].
  split; [reflexivity|]. split; [tauto | reflexivity].
Qed.

(** Scenario E of the specification: an absent status map, an empty
    environmental map and the device type "438K". *)
Lemma C7_witness :
  let result := DynamicDeviceFactory.create_device_from_capabilities "S" "C" "438K" None (Some ∅) in
  result = DynamicDeviceFactory._fallback_to_static_mapping "S" "C" "438K"
  ∧ result = (λ cls, new cls "S" "C" "438K") <$> Spec.static_fallback "438K"
  ∧ (result = None
     ↔ Forall (λ p, String.prefix p "438K" = false) ["739"; "438"; "527"; "358"; "664"]).
Proof.
  apply (C7_no_telemetry_static_fallback "S" "C" "438K" None (Some ∅)).
  - left; reflexivity.
  - right; reflexivity.
Defined.

(** C6, as stated, fails: a key whose value is the pair [["OFF", None]] is
    present for the detectors, although its resolved (current) element is
    null, both for the specification's notion of resolution and for the
    accessor [_get_field_value] of the device classes. *)
Lemma C6_counterexample :
  let data : gmap string value := {[ "fpwr" := VList [VStr "OFF"; VNone] ]} in
  (_has_field data "fpwr" = true
   ∧ Spec.field_present data "fpwr" = false
   ∧ DysonBasicFan._get_field_value data "fpwr" = VNone)
  ∧ ¬ (∀ (data : gmap string value) (field : string),
         _has_field data field = true ↔ Spec.field_present data field = true).
Proof.
  intros data.
  assert (Hcode : _has_field data "fpwr" = true) by (vm_compute; reflexivity).
  assert (Hspec : Spec.field_present data "fpwr" = false) by (vm_compute; reflexivity).
  assert (Hacc : DysonBasicFan._get_field_value data "fpwr" = VNone) by (vm_compute; reflexivity).
  split; [tauto|].
  intros H. apply H in Hcode. congruence.
Qed.

(** C6, amended: a field is present for detection iff the key exists in
    the map and its raw value is not null; a list value is never null, so a
    key holding a [[previous, current]] pair is present whatever its two
    elements are. *)
Theorem C6_presence_is_raw_non_null (data : gmap string value) (field : string) :
  (_has_field data field = true ↔ ∃ v, data !! field = Some v ∧ v ≠ VNone)
  ∧ (∀ previous current : value,
        _has_field (<[ field := VList [previous; current] ]> data) field = true).
Proof.
  split.
  - unfold _has_field. destruct (data !! field) as [v|].
    + split.
      * intros Hv. exists v. split; [reflexivity|]. intros ->. discriminate.
      * intros (v' & [= <-] & Hv). destruct v; [congruence | reflexivity..].
    + split; [discriminate | intros (v & [=] & _)].
  - intros previous current. unfold _has_field. rewrite lookup_insert_eq. reflexivity.
Qed.

(** C8: for every pair of payloads, the advanced-oscillation confidence is
    0.95 when [osal] and [osau] are both present, 0.5 when exactly one is,
    and 0.0 otherwise; the advanced-environmental confidence is the number
    of [va10], [noxl], [co2r] present, divided by 3, that is 0, 1/3, 2/3 or
    1 (presence being the detectors' [_has_field]). *)
Theorem C8_detector_confidence_rules (status_data environmental_data : gmap string value) :
  let osal := _has_field status_data "osal" in
  let osau := _has_field status_data "osau" in
  let count :=
    (Nat.b2n (_has_field environmental_data "va10")
     + Nat.b2n (_has_field environmental_data "noxl")
     + Nat.b2n (_has_field environmental_data "co2r"))%nat in
  AdvancedOscillationDetector.get_confidence_score status_data environmental_data
  = (if osal && osau then 0.95 else if xorb osal osau then 0.5 else 0.0)%float
  ∧ AdvancedEnvironmentalDetector.get_confidence_score status_data environmental_data
    = PrimFloat.div (float_of_nat count) 3.0%float
  ∧ AdvancedEnvironmentalDetector.get_confidence_score status_data environmental_data
    = match count with
      | 0 => 0.0
      | 1 => 0.3333333333333333
      | 2 => 0.6666666666666666
      | _ => 1.0
      end%float.
Proof.
  intros osal osau count. subst osal osau count.
  unfold AdvancedOscillationDetector.get_confidence_score,
    AdvancedEnvironmentalDetector.get_confidence_score, _has_fields, py_all, py_any.
  cbn [forallb existsb List.filter].
  destruct (_has_field status_data "osal"), (_has_field status_data "osau");
    (split; [reflexivity|]);
    destruct (_has_field environmental_data "va10"),
             (_has_field environmental_data "noxl"),
             (_has_field environmental_data "co2r");
    split; vm_compute; reflexivity.
Qed.

(** ** The aggregate confidence *)

Lemma all_bool_spec (f : bool → bool) : all_bool f = true → ∀ b, f b = true.
Proof. unfold all_bool. intros H [|]; apply andb_prop in H; tauto. Qed.

Ltac reflect_bools :=
  intros;
  repeat match goal with
         | b : bool |- _ =>
             revert b;
             match goal with
             | |- ∀ b, @?f b = true => apply (all_bool_spec f)
             end
         end.

Lemma fold_run_detector (s e : gmap string value) (ds : list CapabilityDetector) :
  ∀ (caps : gset DeviceCapability) (rs : list DetectorResult),
    fold_left (run_detector s e) ds (caps, rs)
    = (all_detected s e ds caps, (rs ++ map (result_of s e) ds)%list).
Proof.
  induction ds as [|d ds IH]; intros caps rs; simpl.
  - rewrite app_nil_r. reflexivity.
  - rewrite IH. unfold all_detected. simpl. rewrite <- app_assoc. reflexivity.
Qed.

Lemma discover_capabilities_unfold (s e : gmap string value) :
  discover_capabilities s e
  = let caps := all_detected s e detectors ∅ in
    mkDeviceCapabilities caps (dom s) (dom e) (Some (_suggest_device_type caps))
      (_calculate_intelligent_confidence (map (result_of s e) detectors) caps).
Proof.
  unfold discover_capabilities. rewrite fold_run_detector. reflexivity.
Qed.

Lemma two_of_three (X : gset DeviceCapability) :
  bool_decide (2 ≤ size ({[ VOC_SENSOR; NO2_SENSOR; CO2_SENSOR ]} ∩ X))%nat
  = (2 <=? Nat.b2n (bool_decide (VOC_SENSOR ∈ X)) + Nat.b2n (bool_decide (NO2_SENSOR ∈ X))
           + Nat.b2n (bool_decide (CO2_SENSOR ∈ X)))%nat.
Proof.
  destruct (bool_decide_reflect (VOC_SENSOR ∈ X)) as [Hv|Hv],
           (bool_decide_reflect (NO2_SENSOR ∈ X)) as [Hn|Hn],
           (bool_decide_reflect (CO2_SENSOR ∈ X)) as [Hc|Hc]; cbn [Nat.b2n Nat.add Nat.leb].
  - replace ({[ VOC_SENSOR; NO2_SENSOR; CO2_SENSOR ]} ∩ X) with ({[ VOC_SENSOR; NO2_SENSOR; CO2_SENSOR ]} : gset DeviceCapability) by set_solver. reflexivity.
  - replace ({[ VOC_SENSOR; NO2_SENSOR; CO2_SENSOR ]} ∩ X) with ({[ VOC_SENSOR; NO2_SENSOR ]} : gset DeviceCapability) by set_solver. reflexivity.
  - replace ({[ VOC_SENSOR; NO2_SENSOR; CO2_SENSOR ]} ∩ X) with ({[ VOC_SENSOR; CO2_SENSOR ]} : gset DeviceCapability) by set_solver. reflexivity.
  - replace ({[ VOC_SENSOR; NO2_SENSOR; CO2_SENSOR ]} ∩ X) with ({[ VOC_SENSOR ]} : gset DeviceCapability) by set_solver. reflexivity.
  - replace ({[ VOC_SENSOR; NO2_SENSOR; CO2_SENSOR ]} ∩ X) with ({[ NO2_SENSOR; CO2_SENSOR ]} : gset DeviceCapability) by set_solver. reflexivity.
  - replace ({[ VOC_SENSOR; NO2_SENSOR; CO2_SENSOR ]} ∩ X) with ({[ NO2_SENSOR ]} : gset DeviceCapability) by set_solver. reflexivity.
  - replace ({[ VOC_SENSOR; NO2_SENSOR; CO2_SENSOR ]} ∩ X) with ({[ CO2_SENSOR ]} : gset DeviceCapability) by set_solver. reflexivity.
  - replace ({[ VOC_SENSOR; NO2_SENSOR; CO2_SENSOR ]} ∩ X) with (∅ : gset DeviceCapability) by set_solver. reflexivity.
Qed.

Lemma bonus_by_of : ∀ has : DeviceCapability → bool, bonus_by has = Spec.bonus_of has.
Proof.
  intros has. apply FloatAxioms.Leibniz.eqb_spec.
  unfold bonus_by, Spec.bonus_of, Spec.coherence_rules.
  generalize (has BASIC_FAN_CONTROL) (has BASIC_OSCILLATION) (has AUTO_MODE)
    (has FILTER_MONITORING) (has PM_SENSORS) (has VOC_SENSOR) (has NO2_SENSOR)
    (has CO2_SENSOR) (has HEATING) (has HUMIDIFICATION) (has HUMIDITY_SENSOR)
    (has ANGLE_OSCILLATION) (has TEMPERATURE_SENSOR).
  clear has. reflect_bools. vm_compute. reflexivity.
Qed.

Lemma coherence_bonus_eq (caps : gset DeviceCapability) :
  _calculate_coherence_bonus caps = Spec.coherence_bonus caps.
Proof.
  unfold Spec.coherence_bonus. rewrite <- bonus_by_of.
  unfold _calculate_coherence_bonus, bonus_by, Spec.present.
  cbv zeta. rewrite !contains_2, contains_3, two_of_three, bool_decide_not.
  reflexivity.
Qed.

Lemma results_as_detections (s e : gmap string value) :
  map (result_of s e) detectors = map as_result (Spec.detections s e).
Proof. reflexivity. Qed.

Lemma assign_weight_eq (d : Spec.detection) :
  assign_weight (Spec.d_detector d) (size (Spec.d_tags d)) = Spec.weight d.
Proof.
  unfold assign_weight, Spec.weight, Spec.weight_table, Spec.productive.
  cbn [List.find fst snd existsb].
  destruct (String.eqb (Spec.d_detector d) "BasicFanDetector"); [reflexivity|].
  destruct (String.eqb (Spec.d_detector d) "AdvancedOscillationDetector"); [reflexivity|].
  destruct (String.eqb (Spec.d_detector d) "PurificationDetector"); [reflexivity|].
  destruct (String.eqb (Spec.d_detector d) "AdvancedEnvironmentalDetector"); [reflexivity|].
  destruct (String.eqb (Spec.d_detector d) "HeatingDetector"); [reflexivity|].
  destruct (String.eqb (Spec.d_detector d) "HumidificationDetector"); cbn [orb fst snd].
  - reflexivity.
  - destruct (0 <? size (Spec.d_tags d))%nat; reflexivity.
Qed.

Lemma filter_as_result (ds : list Spec.detection) :
  List.filter r_is_relevant (map as_result ds) = map as_result (List.filter Spec.relevant ds).
Proof.
  induction ds as [|d ds IH]; [reflexivity|].
  cbn [map List.filter as_result r_is_relevant].
  destruct (Spec.relevant d); cbn [map]; rewrite IH; reflexivity.
Qed.

Lemma fold_weigh (ds : list Spec.detection) :
  ∀ a b : float,
    fold_left weigh (map as_result ds) (a, b)
    = (fold_left PrimFloat.add
         (map (λ d, PrimFloat.mul (Spec.d_confidence d) (Spec.weight d)) ds) a,
       fold_left PrimFloat.add (map Spec.weight ds) b).
Proof.
  induction ds as [|d ds IH]; intros a b; [reflexivity|].
  cbn [map fold_left]. unfold weigh at 2.
  cbn [as_result r_detector r_confidence r_capabilities].
  rewrite assign_weight_eq. apply IH.
Qed.

Lemma calculate_intelligent_confidence_sums (ds : list Spec.detection)
    (caps : gset DeviceCapability) :
  _calculate_intelligent_confidence (map as_result ds) caps
  = match List.filter Spec.relevant ds with
    | [] => 0.0%float
    | r :: rs' =>
        let rs := r :: rs' in
        let total_weight := Spec.sum (map Spec.weight rs) in
        let base :=
          if PrimFloat.ltb 0.0 total_weight
          then PrimFloat.div
                 (Spec.sum (map (λ d, PrimFloat.mul (Spec.d_confidence d) (Spec.weight d)) rs))
                 total_weight
          else 0.0%float in
        py_min 1.0 (PrimFloat.add base (_calculate_coherence_bonus caps))
    end.
Proof.
  unfold _calculate_intelligent_confidence.
  destruct ds as [|d ds]; [reflexivity|].
  cbn [map]. change (as_result d :: map as_result ds) with (map as_result (d :: ds)).
  rewrite filter_as_result.
  destruct (List.filter Spec.relevant (d :: ds)) as [|r rs]; [reflexivity|].
  cbn [map]. change (as_result r :: map as_result rs) with (map as_result (r :: rs)).
  rewrite fold_weigh. reflexivity.
Qed.

Lemma sum_filter_fold {A} (f : A → float) (p : A → bool) (l : list A) :
  ∀ a : float,
    fold_left PrimFloat.add (map f (List.filter p l)) a
    = fold_left (λ a x, if p x then PrimFloat.add a (f x) else a) l a.
Proof.
  induction l as [|x l IH]; intros a; [reflexivity|].
  cbn [List.filter fold_left]. destruct (p x); cbn [map fold_left]; apply IH.
Qed.

Lemma filter_nil_existsb {A} (p : A → bool) (l : list A) :
  existsb p l = match List.filter p l with [] => false | _ => true end.
Proof.
  induction l as [|x l IH]; [reflexivity|].
  cbn [existsb List.filter]. destruct (p x); [reflexivity | exact IH].
Qed.

(** Whenever a detector is relevant the accumulated weight is positive, so
    the guard [if total_weight > 0] of the code always takes the division. *)
Lemma total_weight_positive (s e : gmap string value) :
  existsb Spec.relevant (Spec.detections s e) = true →
  PrimFloat.ltb 0.0 (Spec.sum (map Spec.weight (List.filter Spec.relevant (Spec.detections s e))))
  = true.
Proof.
  unfold Spec.sum. rewrite sum_filter_fold.
  unfold Spec.detections, detectors.
  cbn [map detector_name BasicFanDetector.self AdvancedOscillationDetector.self
       PurificationDetector.self AdvancedEnvironmentalDetector.self HeatingDetector.self
       HumidificationDetector.self].
  generalize (detect BasicFanDetector.self s e) (get_confidence_score BasicFanDetector.self s e)
    (detect AdvancedOscillationDetector.self s e)
    (get_confidence_score AdvancedOscillationDetector.self s e)
    (detect PurificationDetector.self s e) (get_confidence_score PurificationDetector.self s e)
    (detect AdvancedEnvironmentalDetector.self s e)
    (get_confidence_score AdvancedEnvironmentalDetector.self s e)
    (detect HeatingDetector.self s e) (get_confidence_score HeatingDetector.self s e)
    (detect HumidificationDetector.self s e)
    (get_confidence_score HumidificationDetector.self s e).
  intros C1 c1 C2 c2 C3 c3 C4 c4 C5 c5 C6 c6.
  cbv beta iota delta [existsb fold_left Spec.relevant Spec.productive Spec.weight
    Spec.weight_table Spec.d_tags Spec.d_confidence Spec.d_detector List.find fst snd
    String.eqb Ascii.eqb Bool.eqb].
  generalize (0 <? size C1)%nat (0 <? size C2)%nat (0 <? size C3)%nat
             (0 <? size C4)%nat (0 <? size C5)%nat (0 <? size C6)%nat
             (PrimFloat.ltb 0 c1) (PrimFloat.ltb 0 c2) (PrimFloat.ltb 0 c3)
             (PrimFloat.ltb 0 c4) (PrimFloat.ltb 0 c5) (PrimFloat.ltb 0 c6).
  clear. intros p1 p2 p3 p4 p5 p6 q1 q2 q3 q4 q5 q6.
  match goal with
  | |- ?a = true → ?b = true => enough (implb a b = true) as H
  end.
  { intros Ha. rewrite Ha in H. exact H. }
  revert p1 p2 p3 p4 p5 p6 q1 q2 q3 q4 q5 q6.
  reflect_bools. vm_compute. reflexivity.
Qed.

(** When no detector is relevant, no detector reported a tag. *)
Lemma all_detected_irrelevant (s e : gmap string value) (ds : list CapabilityDetector) :
  ∀ start : gset DeviceCapability,
    existsb Spec.relevant
      (map (λ d, Spec.mkDetection (detector_name d) (detect d s e) (get_confidence_score d s e)) ds)
    = false →
    all_detected s e ds start = start.
Proof.
  induction ds as [|d ds IH]; intros start H; [reflexivity|].
  cbn [map existsb] in H. apply orb_false_elim in H as [Hd Hds].
  unfold Spec.relevant, Spec.productive in Hd. cbn [Spec.d_tags] in Hd.
  apply orb_false_elim in Hd as [Hd _]. apply Nat.ltb_ge in Hd.
  assert (Hempty : detect d s e = ∅).
  { apply leibniz_equiv, size_empty_iff. lia. }
  unfold all_detected. cbn [fold_left]. rewrite Hempty, (right_id_L ∅ (∪)).
  apply IH, Hds.
Qed.

(** C3: for every pair of payloads the confidence score of a discovery is
    min(1.0, base + bonus): base is the weighted mean of the relevant
    detectors' confidences (a detector is relevant when it reported a tag or
    a confidence above 0; the weights are those of the table, by detector
    and by whether it found a tag; over no relevant detector the mean is
    0.0), and bonus is the sum of the seven coherence rules capped at 0.30. *)
Theorem C3_aggregate_confidence (status_data environmental_data : gmap string value) :
  let dc := discover_capabilities status_data environmental_data in
  confidence_score dc
  = Spec.aggregate_confidence (Spec.detections status_data environmental_data)
                              (discovered_capabilities dc).
Proof.
  intros dc. subst dc. rewrite discover_capabilities_unfold.
  cbn [confidence_score discovered_capabilities].
  rewrite results_as_detections, calculate_intelligent_confidence_sums.
  unfold Spec.aggregate_confidence, Spec.weighted_mean.
  pose proof (total_weight_positive status_data environmental_data) as Hpos.
  pose proof (all_detected_irrelevant status_data environmental_data detectors ∅) as Hnone.
  fold (Spec.detections status_data environmental_data) in Hnone.
  rewrite filter_nil_existsb in Hpos, Hnone.
  destruct (List.filter Spec.relevant (Spec.detections status_data environmental_data))
    as [|r rs].
  - rewrite Hnone by reflexivity. vm_compute. reflexivity.
  - cbv zeta. rewrite Hpos by reflexivity. rewrite coherence_bonus_eq. reflexivity.
Qed.

(** ** Detected tags and the bounds of the score *)

Ltac expose_detectors :=
  cbv beta iota zeta delta
    [detectors all_detected result_of fold_left map
     detect get_confidence_score detector_name
     BasicFanDetector.self BasicFanDetector.detect BasicFanDetector.get_confidence_score
     AdvancedOscillationDetector.self AdvancedOscillationDetector.detect
     AdvancedOscillationDetector.get_confidence_score
     PurificationDetector.self PurificationDetector.detect PurificationDetector.get_confidence_score
     AdvancedEnvironmentalDetector.self AdvancedEnvironmentalDetector.detect
     AdvancedEnvironmentalDetector.get_confidence_score
     HeatingDetector.self HeatingDetector.detect HeatingDetector.get_confidence_score
     HumidificationDetector.self HumidificationDetector.detect
     HumidificationDetector.get_confidence_score
     confidence_score device_type_hint discovered_capabilities
     _has_fields py_all py_any List.filter forallb existsb].

Section tag_tests.
Context (x : DeviceCapability).

Lemma elem_empty_b (X : gset DeviceCapability) : X = ∅ → bool_decide (x ∈ X) = false.
Proof. intros ->. apply bool_decide_eq_false. set_solver. Qed.

Lemma elem_union_b (X Y : gset DeviceCapability) :
  bool_decide (x ∈ X ∪ Y) = bool_decide (x ∈ X) || bool_decide (x ∈ Y).
Proof. repeat case_bool_decide; simpl; try reflexivity; exfalso; set_solver. Qed.

Lemma elem_add_if_b (b : bool) (a : DeviceCapability) (X : gset DeviceCapability) :
  bool_decide (x ∈ add_if b a X) = bool_decide (x ∈ X) || (b && bool_decide (x = a)).
Proof.
  destruct b; cbn [add_if andb]; [|rewrite orb_false_r; reflexivity].
  repeat case_bool_decide; simpl; try reflexivity; exfalso; set_solver.
Qed.
End tag_tests.

Lemma size_empty_b : (0 <? size (∅ : gset DeviceCapability))%nat = false.
Proof. reflexivity. Qed.

Lemma size_add_if_b (b : bool) (a : DeviceCapability) (X : gset DeviceCapability) :
  (0 <? size (add_if b a X))%nat = (0 <? size X)%nat || b.
Proof.
  destruct b; cbn [add_if]; [|rewrite orb_false_r; reflexivity].
  rewrite orb_true_r. apply Nat.ltb_lt.
  assert (size (X ∪ {[ a ]}) ≠ 0%nat); [|lia].
  apply size_non_empty_iff. set_solver.
Qed.

Ltac decide_tag_equalities :=
  repeat match goal with
         | |- context [bool_decide (?a = ?b)] =>
             let v := eval vm_compute in (bool_decide (a = b)) in
             change (bool_decide (a = b)) with v
         end.

(** A tag is discovered exactly when the fields of its row in the detector
    table are present. *)
Lemma detected_tag (s e : gmap string value) (t : DeviceCapability) :
  bool_decide (t ∈ all_detected s e detectors ∅) = Spec.tag_condition s e t.
Proof.
  expose_detectors.
  rewrite !elem_union_b, !elem_add_if_b, !(elem_empty_b t ∅ eq_refl).
  destruct t; decide_tag_equalities; cbn [Spec.tag_condition forallb existsb];
    rewrite ?andb_false_r, ?andb_true_r, ?orb_false_r, ?orb_false_l, ?orb_assoc;
    reflexivity.
Qed.

Lemma bonus_of_ext (has has' : DeviceCapability → bool) :
  (∀ t, has t = has' t) → Spec.bonus_of has = Spec.bonus_of has'.
Proof.
  intros H. unfold Spec.bonus_of, Spec.coherence_rules. rewrite !H. reflexivity.
Qed.

(** The confidence score of a discovery, as two conditional sums over the
    detections and the coherence bonus of the detector table's conditions. *)
Lemma confidence_score_folded (s e : gmap string value) :
  confidence_score (discover_capabilities s e)
  = let ds := Spec.detections s e in
    if existsb Spec.relevant ds then
      py_min 1.0
        (PrimFloat.add
           (PrimFloat.div
              (fold_left (λ a d, if Spec.relevant d
                                 then PrimFloat.add a (PrimFloat.mul (Spec.d_confidence d) (Spec.weight d))
                                 else a) ds 0.0%float)
              (fold_left (λ a d, if Spec.relevant d then PrimFloat.add a (Spec.weight d) else a)
                         ds 0.0%float))
           (bonus_by (Spec.tag_condition s e)))
    else 0.0%float.
Proof.
  rewrite discover_capabilities_unfold. cbn [confidence_score]. cbv zeta.
  rewrite results_as_detections, calculate_intelligent_confidence_sums.
  pose proof (total_weight_positive s e) as Hpos.
  rewrite filter_nil_existsb in Hpos |- *.
  rewrite <- !sum_filter_fold.
  destruct (List.filter Spec.relevant (Spec.detections s e)) as [|r rs]; [reflexivity|].
  cbv zeta. rewrite Hpos by reflexivity.
  rewrite coherence_bonus_eq, bonus_by_of. unfold Spec.coherence_bonus, Spec.present.
  rewrite (bonus_of_ext _ (Spec.tag_condition s e)) by (intros t; apply detected_tag).
  reflexivity.
Qed.

Lemma pm_fields_order (a b c d : bool) : c || (d || (a || b)) = a || (b || (c || d)).
Proof. destruct a, b, c, d; reflexivity. Qed.

Ltac expose_confidence :=
  cbv beta iota zeta delta
    [Spec.detections detectors map existsb fold_left forallb List.filter List.find fst snd
     Spec.relevant Spec.productive Spec.weight Spec.weight_table
     Spec.d_tags Spec.d_confidence Spec.d_detector Spec.tag_condition bonus_by
     String.eqb Ascii.eqb Bool.eqb
     detect get_confidence_score detector_name
     BasicFanDetector.self BasicFanDetector.detect BasicFanDetector.get_confidence_score
     AdvancedOscillationDetector.self AdvancedOscillationDetector.detect
     AdvancedOscillationDetector.get_confidence_score
     PurificationDetector.self PurificationDetector.detect PurificationDetector.get_confidence_score
     AdvancedEnvironmentalDetector.self AdvancedEnvironmentalDetector.detect
     AdvancedEnvironmentalDetector.get_confidence_score
     HeatingDetector.self HeatingDetector.detect HeatingDetector.get_confidence_score
     HumidificationDetector.self HumidificationDetector.detect
     HumidificationDetector.get_confidence_score
     _has_fields py_all py_any].

(** C4: for every pair of payloads the confidence score of a discovery lies
    in the closed interval from 0.0 to 1.0. *)
Theorem C4_confidence_in_unit_interval (status_data environmental_data : gmap string value) :
  let score := confidence_score (discover_capabilities status_data environmental_data) in
  PrimFloat.leb 0.0 score = true ∧ PrimFloat.leb score 1.0 = true.
Proof.
  intros score. apply andb_prop. change (in_unit_interval score = true). subst score.
  rewrite confidence_score_folded.
  expose_confidence.
  rewrite !size_add_if_b, !size_empty_b.
  rewrite ?andb_true_r, ?orb_false_r, ?orb_false_l.
  rewrite ?(pm_fields_order (_has_field environmental_data "p25r")
                            (_has_field environmental_data "p10r")).
  generalize (_has_field status_data "fpwr" && _has_field status_data "fnsp").
  generalize (_has_field status_data "nmod" && _has_field status_data "nmdv").
  generalize (_has_field status_data "cflr" || _has_field status_data "hflr").
  generalize (_has_field environmental_data "p25r"
              || (_has_field environmental_data "p10r"
                  || (_has_field environmental_data "pm25"
                      || _has_field environmental_data "pm10"))).
  generalize (_has_field status_data "oson") (_has_field status_data "sltm")
    (_has_field status_data "osal") (_has_field status_data "osau")
    (_has_field status_data "auto") (_has_field status_data "fdir")
    (_has_field status_data "hmod") (_has_field status_data "hume")
    (_has_field status_data "wath")
    (_has_field environmental_data "va10") (_has_field environmental_data "noxl")
    (_has_field environmental_data "co2r") (_has_field environmental_data "hact")
    (_has_field environmental_data "tact").
  clear status_data environmental_data.
  reflect_bools. vm_compute. reflexivity.
Qed.

(** ** Payloads without recognized fields *)

Lemma has_field_absent (data : gmap string value) (field : string) :
  data !! field = None → _has_field data field = false.
Proof. unfold _has_field. intros ->. reflexivity. Qed.

(** C5: when neither payload has a key among the fields the detectors
    declare, every detector reports no tag and confidence 0.0, no detector
    is relevant, and the discovery has an empty capability set, confidence
    0.0 and the hint "UnknownDevice". *)
Theorem C5_no_recognized_fields (status_data environmental_data : gmap string value) :
  (∀ field, field ∈ recognized_fields →
            status_data !! field = None ∧ environmental_data !! field = None) →
  let dc := discover_capabilities status_data environmental_data in
  Forall (λ detector,
            detect detector status_data environmental_data = ∅
            ∧ get_confidence_score detector status_data environmental_data = 0.0%float)
         detectors
  ∧ List.filter r_is_relevant (map (result_of status_data environmental_data) detectors) = []
  ∧ discovered_capabilities dc = ∅
  ∧ confidence_score dc = 0.0%float
  ∧ device_type_hint dc = Some "UnknownDevice".
Proof.
  intros Habsent dc. subst dc. rewrite discover_capabilities_unfold.
  assert (Hs : ∀ field, bool_decide (field ∈ recognized_fields) = true →
                        _has_field status_data field = false).
  { intros field Hf. apply bool_decide_eq_true in Hf. apply has_field_absent, Habsent, Hf. }
  assert (He : ∀ field, bool_decide (field ∈ recognized_fields) = true →
                        _has_field environmental_data field = false).
  { intros field Hf. apply bool_decide_eq_true in Hf. apply has_field_absent, Habsent, Hf. }
  clear Habsent.
  unfold detectors. repeat rewrite Forall_cons. rewrite Forall_nil.
  expose_detectors.
  rewrite !Hs by (vm_compute; reflexivity).
  rewrite !He by (vm_compute; reflexivity).
  clear Hs He.
  repeat split; vm_compute; reflexivity.
Qed.

(** A status map whose only key is not a recognized field. *)
Lemma C5_witness :
  let status_data : gmap string value := {[ "zzzz" := VStr "1" ]} in
  let dc := discover_capabilities status_data ∅ in
  Forall (λ detector,
            detect detector status_data ∅ = ∅
            ∧ get_confidence_score detector status_data ∅ = 0.0%float)
         detectors
  ∧ List.filter r_is_relevant (map (result_of status_data ∅) detectors) = []
  ∧ discovered_capabilities dc = ∅
  ∧ confidence_score dc = 0.0%float
  ∧ device_type_hint dc = Some "UnknownDevice".
Proof.
  apply (C5_no_recognized_fields {[ "zzzz" := VStr "1" ]} ∅).
  intros field Hfield. split; [|apply lookup_empty].
  apply lookup_singleton_ne. intros <-.
  assert (H : bool_decide ("zzzz" ∈ recognized_fields) = true)
    by (apply bool_decide_eq_true_2, Hfield).
  vm_compute in H. discriminate.
Defined.

(** Every inspected field present: all detectors report their maximum and
    the bonus reaches its cap, and the score is exactly 1.0. *)
Example all_fields_present_score :
  let status_data : gmap string value :=
    list_to_map
      ((λ field, (field, VStr "ON"))
         <$> ["fpwr"; "fnsp"; "oson"; "nmod"; "nmdv"; "sltm"; "osal"; "osau"; "auto";
              "cflr"; "hflr"; "fdir"; "hmod"; "hume"; "wath"]) in
  let environmental_data : gmap string value :=
    list_to_map
      ((λ field, (field, VStr "0001"))
         <$> ["p25r"; "p10r"; "pm25"; "pm10"; "va10"; "noxl"; "co2r"; "hact"; "tact"]) in
  _calculate_coherence_bonus
    (discovered_capabilities (discover_capabilities status_data environmental_data))
  = 0.3%float
  ∧ confidence_score (discover_capabilities status_data environmental_data) = 1.0%float.
Proof. split; vm_compute; reflexivity. Qed.
